(** * MultitaskVariationalStrategy

    A shallow embedding of
    [gpytorch/variational/multitask_variational_strategy.py] and the
    properties of its methods.

    The class wraps a base variational strategy that works on a batch of
    GPs and presents one batch dimension as the task dimension.  Python
    objects are modelled by explicit state passing: a method is a function
    from the instance state to a result (a value or a raised exception)
    and the new instance state. *)

From Stdlib Require Import ZArith Lia.
From stdpp Require Import base option list gmap strings.

(** ** Exceptions and the method monad *)

(** The exceptions a method of the class can end with: its own [assert],
    an index past the end of a tuple, and whatever a collaborator (the
    base strategy, the distribution classes, torch) raises. *)
Inductive exn : Type :=
  | AssertionError
  | IndexError
  | Raised (what : string).

Inductive result (A : Type) : Type :=
  | Ok (a : A)
  | Err (e : exn).
Arguments Ok {A} a.
Arguments Err {A} e.

(** A method over instances of type [S] returning an [A].  A raised
    exception keeps the mutations made before it, as in Python. *)
Definition M (S A : Type) : Type := S → result A * S.

Definition ret {S A} (a : A) : M S A := λ s, (Ok a, s).

Definition raise {S A} (e : exn) : M S A := λ s, (Err e, s).

Definition bind {S A B} (m : M S A) (f : A → M S B) : M S B :=
  λ s, match m s with
       | (Ok a, s') => f a s'
       | (Err e, s') => (Err e, s')
       end.

Definition lift {S A} (r : result A) : M S A := λ s, (r, s).

(** Reading an attribute of [self]. *)
Definition getattr {S A} (field : S → A) : M S A := λ s, (Ok (field s), s).

(** Running a statement for its effect on [self]. *)
Definition modify {S} (f : S → S) : M S unit := λ s, (Ok tt, f s).

(** Python's [assert cond], with assertions enabled (the interpreter's
    default). *)
Definition assert {S} (cond : bool) : M S unit :=
  if cond then ret tt else raise AssertionError.

(** The methods are written with stdpp's monadic notations. *)
#[global] Instance M_ret {S} : MRet (M S) := λ A, ret.
#[global] Instance M_bind {S} : MBind (M S) := λ A B f m, bind m f.

(** ** Tuples and tensors *)

(** [t[-1]] on a tuple: the last element, [IndexError] on the empty tuple. *)
Definition index_last {A} (t : list A) : result A :=
  match last t with
  | Some a => Ok a
  | None => Err IndexError
  end.

Section Tensor.
(** Tensor entries with their addition; torch's sum of no entry is
    [zero]. *)
Context {A : Type} (zero : A) (add : A → A → A).

(** A strided tensor: its shape and its entries in row-major order. *)
Record tensor : Type := Tensor {
  shape : list nat;
  data : list A
}.

Definition numel (s : list nat) : nat := foldr Nat.mul 1%nat s.

Definition sum_entries (l : list A) : A :=
  match l with
  | [] => zero
  | x :: l' => foldl add x l'
  end.

(** The entry at a flat offset. *)
Definition entry (t : tensor) (i : nat) : A := default zero (data t !! i).

(** Reduction of axis [d] (counted from the front) by summation,
    without keeping the reduced axis.  A missing axis has extent 1, so
    that a 0-dimensional tensor reduces to itself. *)
Definition sum_axis (t : tensor) (d : nat) : tensor :=
  let outer := numel (take d (shape t)) in
  let n := default 1%nat (shape t !! d) in
  let inner := numel (drop (S d) (shape t)) in
  {| shape := delete d (shape t);
     data :=
       o ← seq 0 outer;
       i ← seq 0 inner;
       [sum_entries ((λ k, entry t ((o * n + k) * inner + i)%nat) <$> seq 0 n)] |}.

(** torch's wrapping of a [dim] argument of a tensor with [ndim]
    dimensions: [dim] ranges over [-ndim .. ndim-1], a negative one
    counting from the back; a 0-dimensional tensor accepts [-1] and
    [0]. *)
Definition wrap_dim (dim : Z) (ndim : nat) : option nat :=
  let n := Z.max (Z.of_nat ndim) 1 in
  if bool_decide (- n ≤ dim < n)%Z
  then Some (Z.to_nat (if bool_decide (dim < 0)%Z then dim + n else dim)%Z)
  else None.

(** [t.sum(dim=dim)]. *)
Definition tensor_sum (t : tensor) (dim : Z) : result tensor :=
  match wrap_dim dim (length (shape t)) with
  | Some d => Ok (sum_axis t d)
  | None => Err IndexError
  end.
End Tensor.
Arguments tensor A : clear implicits.
Arguments Tensor {A} shape data.

(** ** The collaborators *)

(** The distribution objects the strategies return, as far as the class
    uses them: the two shape attributes and the two conversions to a
    multitask distribution.  A value of [D] is an object reference, so
    equality in [D] is object identity. *)
Class Distribution (D : Type) : Type := {
  batch_shape : D → list nat;
  event_shape : D → list nat;
  (** [d.to_multitask_from_batch(task_dim=task_dim)] *)
  to_multitask_from_batch : D → Z → result D;
  (** [d.to_multitask(num_tasks=num_tasks)] *)
  to_multitask : D → Z → result D
}.

(** The interface of the wrapped variational strategy, an object with
    state [B] of its own: calling it on inputs, [prior(inputs)] and the
    three properties the wrapper forwards. *)
Class VariationalStrategy (B X D P : Type) : Type := {
  strategy_call : X → M B D;
  strategy_prior : X → M B D;
  strategy_prior_distribution : M B D;
  strategy_variational_distribution : M B D;
  strategy_variational_params_initialized : M B P
}.

(** ** The class *)

Section MultitaskVariationalStrategy.
Context {A : Type} (zero : A) (add : A → A → A).
Context {B X D P : Type} `{!Distribution D} `{!VariationalStrategy B X D P}.

(** An instance: the three attributes set by [__init__], the [training]
    flag of [torch.nn.Module], and the [_memoize_cache] attribute, which
    is absent ([None]) until something is cached. *)
Record MultitaskVariationalStrategy : Type := Self {
  base_variational_strategy : B;
  task_dim : Z;
  num_tasks : Z;
  training : bool;
  _memoize_cache : option (gmap string D)
}.

Definition set_base_variational_strategy (b : B) (self : MultitaskVariationalStrategy) :=
  {| base_variational_strategy := b;
     task_dim := task_dim self;
     num_tasks := num_tasks self;
     training := training self;
     _memoize_cache := _memoize_cache self |}.

Definition set_memoize_cache (c : option (gmap string D)) (self : MultitaskVariationalStrategy) :=
  {| base_variational_strategy := base_variational_strategy self;
     task_dim := task_dim self;
     num_tasks := num_tasks self;
     training := training self;
     _memoize_cache := c |}.

(** A method of [self.base_variational_strategy] run from the wrapper:
    it acts on the base strategy's state only. *)
Definition on_base {R} (m : M B R) : M MultitaskVariationalStrategy R :=
  λ self, let '(r, b) := m (base_variational_strategy self) in
          (r, set_base_variational_strategy b self).

(** The parent class's [kl_divergence], reached through [super()], and
    [Module.__call__]: both are defined outside this file and act on
    [self]. *)
Variable super_kl_divergence : M MultitaskVariationalStrategy (tensor A).
Variable Module_call : X → M MultitaskVariationalStrategy D.

(** *** [gpytorch.utils.memoize] *)

(** Modelled from the spec: [is_in_cache] of [gpytorch/utils/memoize.py]
    is missing; the accessors are "memoized per instance" in the
    "per-instance memoization cache", the [_memoize_cache] dictionary
    that [__call__] tests for with [hasattr]. *)
Definition is_in_cache (name : string) (self : MultitaskVariationalStrategy) : bool :=
  match _memoize_cache self with
  | Some c => bool_decide (is_Some (c !! name))
  | None => false
  end.

(** Modelled from the spec: [add_to_cache] of [gpytorch/utils/memoize.py]
    is missing; it creates the dictionary when the attribute is absent
    and stores the value under [name]. *)
Definition add_to_cache (name : string) (val : D) (self : MultitaskVariationalStrategy) :=
  set_memoize_cache (Some (<[name := val]> (default ∅ (_memoize_cache self)))) self.

(** Modelled from the spec: [get_from_cache] of
    [gpytorch/utils/memoize.py] is missing; it returns the stored
    object. *)
Definition get_from_cache (name : string) : M MultitaskVariationalStrategy D :=
  λ self, match _memoize_cache self ≫= (.!! name) with
          | Some val => (Ok val, self)
          | None => (Err (Raised "RuntimeError"), self)
          end.

(** Modelled from the spec: the decorator [cached(name=...)] of
    [gpytorch/utils/memoize.py] is missing; "repeated access ... avoids
    recomputation": the method runs only when nothing is stored under
    [name], and the stored object is what every access returns. *)
Definition cached (name : string) (method : M MultitaskVariationalStrategy D)
  : M MultitaskVariationalStrategy D :=
  hit ← getattr (is_in_cache name);
  (if hit : bool then mret tt
   else val ← method; modify (add_to_cache name val));;
  get_from_cache name.

(** *** The methods *)

Definition default_task_dim : Z := -1.

(** [__init__(self, base_variational_strategy, num_tasks, task_dim=-1)];
    [task_dim = None] is the call that omits the argument.
    [Module.__init__] leaves a module in training mode, with no
    [_memoize_cache] attribute. *)
Definition __init__ (base : B) (n : Z) (td : option Z) : MultitaskVariationalStrategy :=
  {| base_variational_strategy := base;
     task_dim := default default_task_dim td;
     num_tasks := n;
     training := true;
     _memoize_cache := None |}.

Definition prior_distribution : M MultitaskVariationalStrategy D :=
  cached "prior_distribution_memo" (on_base strategy_prior_distribution).

Definition variational_distribution : M MultitaskVariationalStrategy D :=
  cached "variational_distribution_memo" (on_base strategy_variational_distribution).

Definition variational_params_initialized : M MultitaskVariationalStrategy P :=
  on_base strategy_variational_params_initialized.

Definition forward (inputs : X) : M MultitaskVariationalStrategy D :=
  function_dist ← on_base (strategy_call inputs);
  td ← getattr task_dim;
  function_dist ← lift (to_multitask_from_batch function_dist td);
  size ← lift (index_last (event_shape function_dist));
  n ← getattr num_tasks;
  assert (bool_decide (Z.of_nat size = n));;
  mret function_dist.

Definition kl_divergence : M MultitaskVariationalStrategy (tensor A) :=
  kl ← super_kl_divergence;
  lift (tensor_sum zero add kl (-1)).

(** The condition of the [if] in [prior]; [and] binds tighter than
    [or]. *)
Definition prior_expands (td : Z) (rank : nat) : bool :=
  (bool_decide (td > 0)%Z && bool_decide (td > Z.of_nat rank)%Z)
  || (bool_decide (td < 0)%Z && bool_decide (td + Z.of_nat rank < 0)%Z).

Definition prior (inputs : X) : M MultitaskVariationalStrategy D :=
  function_dist ← on_base (strategy_prior inputs);
  td ← getattr task_dim;
  if prior_expands td (length (batch_shape function_dist)) then
    n ← getattr num_tasks;
    lift (to_multitask function_dist n)
  else
    function_dist ← lift (to_multitask_from_batch function_dist td);
    size ← lift (index_last (event_shape function_dist));
    n ← getattr num_tasks;
    assert (bool_decide (Z.of_nat size = n));;
    mret function_dist.

Definition __call__ (x : X) : M MultitaskVariationalStrategy D :=
  t ← getattr training;
  (if t : bool then
     has ← getattr (λ self, bool_decide (is_Some (_memoize_cache self)));
     if has : bool then
       modify (set_memoize_cache None);;
       modify (set_memoize_cache (Some ∅))
     else mret tt
   else mret tt);;
  Module_call x.

(** *** Reference behaviour

    What the methods are compared with in the theorems below. *)

(** The instance as [__call__] hands it to [Module.__call__] in
    training mode: an existing cache dictionary is replaced by an empty
    one. *)
Definition with_cache_discarded (self : MultitaskVariationalStrategy)
  : MultitaskVariationalStrategy :=
  match _memoize_cache self with
  | Some _ => set_memoize_cache (Some ∅) self
  | None => self
  end.

(** The instance after a sequence of calls of the wrapper. *)
Definition after_calls (xs : list X) (self : MultitaskVariationalStrategy)
  : MultitaskVariationalStrategy :=
  foldl (λ s x, (__call__ x s).2) self xs.

(** The reading of a batch distribution [d] with batch dimension [td]
    as the task dimension, checked against the task count [n]. *)
Definition reinterpret_checked (d : D) (td n : Z) : result D :=
  match to_multitask_from_batch d td with
  | Ok d' =>
      match last (event_shape d') with
      | Some size => if decide (Z.of_nat size = n) then Ok d' else Err AssertionError
      | None => Err IndexError
      end
  | Err e => Err e
  end.

(** The spec's condition for the expanding branch of [prior]: the task
    dimension "lies outside" the rank of the batch shape, so that there
    is no "existing batch dimension" to read as the task dimension.  The
    batch dimensions of a batch shape of rank [rank] are the indices
    [-rank .. rank - 1]. *)
Definition task_dim_outside_rank (td : Z) (rank : nat) : Prop :=
  ¬ (- Z.of_nat rank ≤ td < Z.of_nat rank)%Z.

(** The condition of [prior] as a bound: the task dimension exceeds the
    rank in either direction. *)
Definition task_dim_exceeds_rank (td : Z) (rank : nat) : Prop :=
  (Z.abs td > Z.of_nat rank)%Z.

(** The spec's [kl_divergence]: the KL tensor "summed over the task
    dimension", the axis configured as [task_dim]. *)
Definition kl_summed_over_task_dim (kl : tensor A) (self : MultitaskVariationalStrategy)
  : result (tensor A) :=
  tensor_sum zero add kl (task_dim self).
End MultitaskVariationalStrategy.
Arguments MultitaskVariationalStrategy B D : clear implicits.

(** ** A shape-level instance of the collaborators

    Used to run the methods on concrete inputs. *)

Module ShapeModel.
(** A distribution object reduced to its shapes; [serial] tells the
    evaluation of the base strategy that built the object apart from
    the others. *)
Record mvn : Type := Mvn {
  serial : nat;
  mvn_batch_shape : list nat;
  mvn_event_shape : list nat
}.

(** A Python index into a sequence of length [len]. *)
Definition wrap_index (i : Z) (len : nat) : option nat :=
  if bool_decide (- Z.of_nat len ≤ i < Z.of_nat len)%Z
  then Some (Z.to_nat (if bool_decide (i < 0)%Z then i + Z.of_nat len else i)%Z)
  else None.

(** Modelled from the spec: the distribution method
    [to_multitask_from_batch] is missing; it serves "to reinterpret a
    batch dimension as a task/event dimension": the batch dimension
    [task_dim] leaves the batch shape and becomes the last event
    dimension. *)
Definition mvn_to_multitask_from_batch (d : mvn) (task_dim : Z) : result mvn :=
  match wrap_index task_dim (length (mvn_batch_shape d)) with
  | Some i =>
      Ok {| serial := serial d;
            mvn_batch_shape := delete i (mvn_batch_shape d);
            mvn_event_shape := mvn_event_shape d ++ [default 0%nat (mvn_batch_shape d !! i)] |}
  | None => Err (Raised "ValueError")
  end.

(** Modelled from the spec: the distribution method [to_multitask] is
    missing; it serves "to expand a task-less distribution into a
    multi-task one": the batch shape stays and [num_tasks] becomes the
    last event dimension. *)
Definition mvn_to_multitask (d : mvn) (num_tasks : Z) : result mvn :=
  Ok {| serial := serial d;
        mvn_batch_shape := mvn_batch_shape d;
        mvn_event_shape := mvn_event_shape d ++ [Z.to_nat num_tasks] |}.

#[global] Instance mvn_distribution : Distribution mvn := {|
  batch_shape := mvn_batch_shape;
  event_shape := mvn_event_shape;
  to_multitask_from_batch := mvn_to_multitask_from_batch;
  to_multitask := mvn_to_multitask
|}.

(** A base strategy over a batch of GPs: every evaluation builds a new
    distribution object with batch shape [gp_batch_shape]; the inputs
    are given by the number of points. *)
Record batch_strategy : Type := BatchStrategy {
  evaluations : nat;
  gp_batch_shape : list nat;
  inducing_points : nat;
  params_initialized : bool
}.

Definition fresh_mvn (points : nat) (initialize : bool) : M batch_strategy mvn :=
  λ b, (Ok (Mvn (evaluations b) (gp_batch_shape b) [points]),
        {| evaluations := S (evaluations b);
           gp_batch_shape := gp_batch_shape b;
           inducing_points := inducing_points b;
           params_initialized := initialize || params_initialized b |}).

#[global] Instance batch_variational_strategy
  : VariationalStrategy batch_strategy nat mvn bool := {|
  strategy_call := λ points, fresh_mvn points true;
  strategy_prior := λ points, fresh_mvn points false;
  strategy_prior_distribution :=
    λ b, fresh_mvn (inducing_points b) false b;
  strategy_variational_distribution :=
    λ b, fresh_mvn (inducing_points b) false b;
  strategy_variational_params_initialized := getattr params_initialized
|}.

(** A parent [kl_divergence] that returns the tensor [kl]. *)
Definition fixed_kl (kl : tensor Z)
  : M (MultitaskVariationalStrategy batch_strategy mvn) (tensor Z) :=
  mret kl.

(** Two GPs with batch shape [3; 2], wrapped with the last batch
    dimension as the task dimension. *)
Definition two_tasks : MultitaskVariationalStrategy batch_strategy mvn :=
  __init__ (BatchStrategy 0 [3; 2]%nat 4 false) 2 None.

(** The same GPs read as three tasks along the first batch dimension. *)
Definition three_tasks_first : MultitaskVariationalStrategy batch_strategy mvn :=
  __init__ (BatchStrategy 0 [3; 2]%nat 4 false) 3 (Some 0%Z).

(** A per-GP KL tensor of shape [3; 2]. *)
Definition kl_3x2 : tensor Z := Tensor [3; 2]%nat [1; 2; 3; 4; 5; 6]%Z.

(** The two-task wrapper switched to evaluation mode. *)
Definition two_tasks_eval : MultitaskVariationalStrategy batch_strategy mvn :=
  Self (BatchStrategy 0 [3; 2]%nat 4 false) (-1) 2 false None.

(** The two-task wrapper in training mode with a prior distribution
    left in the cache by an earlier step. *)
Definition two_tasks_stale : MultitaskVariationalStrategy batch_strategy mvn :=
  Self (BatchStrategy 9 [3; 2]%nat 4 true) (-1) 2 true
       (Some {[ "prior_distribution_memo" := Mvn 7 [3; 2]%nat [4]%nat ]}).

(** A wrapper whose task dimension equals the rank of the batch shape,
    and one whose task dimension is beyond it. *)
Definition task_dim_at_rank : MultitaskVariationalStrategy batch_strategy mvn :=
  __init__ (BatchStrategy 0 [3; 2]%nat 4 false) 2 (Some 2%Z).

Definition task_dim_beyond_rank : MultitaskVariationalStrategy batch_strategy mvn :=
  __init__ (BatchStrategy 0 [3; 2]%nat 4 false) 2 (Some 3%Z).

(** A wrapper configured with three tasks over GPs that carry two. *)
Definition wrong_task_count : MultitaskVariationalStrategy batch_strategy mvn :=
  __init__ (BatchStrategy 0 [3; 2]%nat 4 false) 3 None.
End ShapeModel.

Import ShapeModel.

(** ** Properties of the tensor reduction *)

Section TensorProperties.
Context {A : Type} (zero : A) (add : A → A → A).

Lemma wrap_dim_last (ndim : nat) :
  wrap_dim (-1) ndim = Some (ndim - 1)%nat.
Proof.
  unfold wrap_dim. rewrite bool_decide_eq_true_2 by lia.
  rewrite (bool_decide_eq_true_2 (-1 < 0)%Z) by lia.
  f_equal. lia.
Qed.

Lemma wrap_dim_nonneg (dim : Z) (ndim : nat) :
  (0 ≤ dim < Z.of_nat ndim)%Z → wrap_dim dim ndim = Some (Z.to_nat dim).
Proof.
  intros Hd. unfold wrap_dim. rewrite bool_decide_eq_true_2 by lia.
  rewrite (bool_decide_eq_false_2 (dim < 0)%Z) by lia. reflexivity.
Qed.

Lemma tensor_sum_last_axis (t : tensor A) :
  tensor_sum zero add t (-1) = Ok (sum_axis zero add t (length (shape t) - 1)).
Proof. unfold tensor_sum. rewrite wrap_dim_last. reflexivity. Qed.

Lemma bind_singleton {E F} (g : E → F) (l : list E) :
  (l ≫= λ o, [g o]) = g <$> l.
Proof. induction l as [|x l IH]; csimpl; [reflexivity | by rewrite IH]. Qed.

(** Reducing the last axis adds up the rows of extent [n]. *)
Lemma sum_axis_last (t : tensor A) (s : list nat) (n : nat) :
  shape t = s ++ [n] →
  sum_axis zero add t (length (shape t) - 1) =
    Tensor s ((λ o, sum_entries zero add ((λ k, entry zero t (o * n + k)) <$> seq 0 n))
                <$> seq 0 (numel s)).
Proof.
  intros Hs. unfold sum_axis. rewrite Hs, length_app. simpl.
  replace (length s + 1 - 1)%nat with (length s) by lia.
  rewrite take_app_length, delete_middle.
  rewrite drop_ge by (rewrite length_app; simpl; lia).
  rewrite list_lookup_middle by reflexivity. simpl.
  f_equal.
  - apply app_nil_r.
  - rewrite <- bind_singleton. apply list_bind_ext; [|reflexivity].
    intros o. simpl. do 2 f_equal. apply list_fmap_ext.
    intros i k _. f_equal. lia.
Qed.
End TensorProperties.

(** ** Properties of the class *)

Section Properties.
Context {A : Type} (zero : A) (add : A → A → A).
Context {B X D P : Type} `{!Distribution D} `{!VariationalStrategy B X D P}.
Variable super_kl_divergence : M (MultitaskVariationalStrategy B D) (tensor A).
Variable Module_call : X → M (MultitaskVariationalStrategy B D) D.

Implicit Types (self : MultitaskVariationalStrategy B D) (name : string).

(** *** The memoization cache *)

Lemma is_in_cache_lookup name self :
  is_in_cache name self = true ↔ is_Some (_memoize_cache self ≫= (.!! name)).
Proof.
  unfold is_in_cache. destruct (_memoize_cache self) as [c|]; simpl.
  - apply bool_decide_eq_true.
  - split; [discriminate | intros [v Hv]; discriminate].
Qed.

Lemma is_in_cache_false name self :
  is_in_cache name self = false ↔ _memoize_cache self ≫= (.!! name) = None.
Proof.
  rewrite <- not_true_iff_false, is_in_cache_lookup, eq_None_not_Some. reflexivity.
Qed.

Lemma lookup_add_to_cache name (val : D) self :
  _memoize_cache (add_to_cache name val self) ≫= (.!! name) = Some val.
Proof. simpl. apply lookup_insert_eq. Qed.

(** A hit returns the stored object and leaves the instance, the base
    strategy included, as it is. *)
Lemma cached_hit name (method : M (MultitaskVariationalStrategy B D) D) self (val : D) :
  _memoize_cache self ≫= (.!! name) = Some val →
  cached name method self = (Ok val, self).
Proof.
  intros Hval. unfold cached, mbind, M_bind, bind, getattr, get_from_cache.
  assert (is_in_cache name self = true) as ->
    by (apply is_in_cache_lookup; rewrite Hval; eauto).
  simpl. rewrite Hval. reflexivity.
Qed.

(** A miss runs the method, returns its outcome and stores a returned
    object. *)
Lemma cached_miss name (method : M (MultitaskVariationalStrategy B D) D) self :
  is_in_cache name self = false →
  cached name method self =
    match method self with
    | (Ok val, self') => (Ok val, add_to_cache name val self')
    | (Err e, self') => (Err e, self')
    end.
Proof.
  intros Hmiss. unfold cached, mbind, M_bind, bind, getattr, get_from_cache, modify.
  rewrite Hmiss. destruct (method self) as [[val|e] self']; [|reflexivity].
  rewrite lookup_add_to_cache. reflexivity.
Qed.

(** Whatever an access returns is what the cache holds afterwards. *)
Lemma cached_returns_stored name (method : M (MultitaskVariationalStrategy B D) D)
    self self1 (val : D) :
  cached name method self = (Ok val, self1) →
  _memoize_cache self1 ≫= (.!! name) = Some val.
Proof.
  destruct (is_in_cache name self) eqn:Hin.
  - apply is_in_cache_lookup in Hin as [v Hv].
    rewrite (cached_hit _ _ _ _ Hv). intros [= -> ->]. exact Hv.
  - rewrite (cached_miss _ _ _ Hin).
    destruct (method self) as [[v|e] self']; intros [= <- <-].
    apply lookup_add_to_cache.
Qed.

Lemma on_base_eq {R} (m : M B R) self r b :
  m (base_variational_strategy self) = (r, b) →
  on_base m self = (r, set_base_variational_strategy b self).
Proof. intros Hm. unfold on_base. rewrite Hm. reflexivity. Qed.

(** A memoized pass-through that finds nothing cached returns the
    outcome of the base strategy's method. *)
Lemma cached_on_base_miss name (m : M B D) self :
  is_in_cache name self = false →
  (cached name (on_base m) self).1 = (m (base_variational_strategy self)).1.
Proof.
  intros Hmiss. rewrite (cached_miss _ _ _ Hmiss). unfold on_base.
  destruct (m (base_variational_strategy self)) as [[d|e] b]; reflexivity.
Qed.

Lemma call_in_evaluation_mode x self :
  training self = false → __call__ Module_call x self = Module_call x self.
Proof.
  intros Heval. unfold __call__, mbind, M_bind, bind, getattr. rewrite Heval.
  reflexivity.
Qed.

Lemma call_in_training_mode x self :
  training self = true →
  __call__ Module_call x self = Module_call x (with_cache_discarded self).
Proof.
  intros Htrain. unfold __call__, with_cache_discarded, mbind, M_bind, bind, getattr.
  rewrite Htrain. destruct self as [b td n t [c|]]; reflexivity.
Qed.

Lemma with_cache_discarded_empty name self :
  is_in_cache name (with_cache_discarded self) = false.
Proof.
  unfold with_cache_discarded, is_in_cache.
  destruct (_memoize_cache self) as [c|] eqn:Hc; simpl.
  - apply bool_decide_eq_false. rewrite lookup_empty. by intros [v Hv].
  - rewrite Hc. reflexivity.
Qed.

(** Calls in evaluation mode keep the cache when the parent's
    [__call__] does. *)
Lemma after_calls_evaluation (xs : list X) self :
  (∀ x s, _memoize_cache (Module_call x s).2 = _memoize_cache s
          ∧ training (Module_call x s).2 = training s) →
  training self = false →
  _memoize_cache (after_calls Module_call xs self) = _memoize_cache self
  ∧ training (after_calls Module_call xs self) = false.
Proof.
  intros Hparent. revert self.
  induction xs as [|x xs IH]; intros self Heval; [by split|].
  simpl. rewrite (call_in_evaluation_mode _ _ Heval).
  destruct (Hparent x self) as [Hc Ht].
  destruct (IH (Module_call x self).2) as [IHc IHt]; [congruence|].
  split; congruence.
Qed.

(** [forward] touches the base strategy only. *)
Lemma forward_frame (inputs : X) self :
  _memoize_cache (forward inputs self).2 = _memoize_cache self
  ∧ training (forward inputs self).2 = training self.
Proof.
  unfold forward, mbind, M_bind, bind, on_base, getattr, lift, assert, mret, M_ret, ret, raise.
  destruct (strategy_call inputs (base_variational_strategy self)) as [[d|e] b]; simpl; [|by split].
  destruct (to_multitask_from_batch d (task_dim self)) as [d'|e]; simpl; [|by split].
  destruct (index_last (event_shape d')) as [size|e]; simpl; [|by split].
  destruct (bool_decide _); by split.
Qed.

(** *** Construction and the accessors *)

(** C7: the constructor stores the base strategy, the task count and
    the task dimension as they are given, whatever their values (it
    checks nothing and always returns an instance), and a call that
    omits the task dimension stores -1, the last dimension. *)
Theorem init_stores_arguments (base : B) (n : Z) (td : option Z) :
  base_variational_strategy (__init__ (D:=D) base n td) = base
  ∧ num_tasks (__init__ (D:=D) base n td) = n
  ∧ task_dim (__init__ (D:=D) base n td) = match td with Some dim => dim | None => (-1)%Z end.
Proof. destruct td; repeat split. Qed.

(** C10: every access of [variational_params_initialized] returns what
    the base strategy's property returns at that moment and acts on the
    base strategy only: it neither reads nor writes the cache, so the
    outcome is the same for any training flag and any cache content. *)
Theorem variational_params_initialized_not_memoized self :
  variational_params_initialized self =
    ((strategy_variational_params_initialized (base_variational_strategy self)).1,
     set_base_variational_strategy
       (strategy_variational_params_initialized (base_variational_strategy self)).2 self)
  ∧ _memoize_cache (variational_params_initialized self).2 = _memoize_cache self
  ∧ ∀ mode cache,
      (variational_params_initialized
         (Self (base_variational_strategy self) (task_dim self) (num_tasks self) mode cache)).1
      = (strategy_variational_params_initialized (base_variational_strategy self)).1.
Proof.
  unfold variational_params_initialized, on_base. simpl.
  destruct (strategy_variational_params_initialized (base_variational_strategy self))
    as [r b]. repeat split.
Qed.

(** C6: an access that finds nothing cached under the accessor's name
    returns exactly the outcome of the base strategy's property of the
    same name, for [prior_distribution] and for
    [variational_distribution]. *)
Theorem accessors_pass_through self :
  (is_in_cache "prior_distribution_memo" self = false →
     (prior_distribution self).1
     = (strategy_prior_distribution (base_variational_strategy self)).1)
  ∧ (is_in_cache "variational_distribution_memo" self = false →
     (variational_distribution self).1
     = (strategy_variational_distribution (base_variational_strategy self)).1).
Proof.
  split; intros Hmiss.
  - exact (cached_on_base_miss _ _ _ Hmiss).
  - exact (cached_on_base_miss _ _ _ Hmiss).
Qed.

(** C5: in evaluation mode an access of [prior_distribution] (of
    [variational_distribution]) that finds nothing cached returns the
    object the base strategy's property returns and stores it; and once
    an access has returned an object, a later access returns that same
    object and leaves the instance as it is, the base strategy not being
    asked again: on any instance whose cache is the one the first access
    left, and so after any calls of the wrapper in evaluation mode. *)
Theorem accessors_memoized self :
  (∀ x s, _memoize_cache (Module_call x s).2 = _memoize_cache s
          ∧ training (Module_call x s).2 = training s) →
  training self = false →
  (∀ d b, is_in_cache "prior_distribution_memo" self = false →
          strategy_prior_distribution (base_variational_strategy self) = (Ok d, b) →
          prior_distribution self
          = (Ok d, add_to_cache "prior_distribution_memo" d
                     (set_base_variational_strategy b self)))
  ∧ (∀ d b, is_in_cache "variational_distribution_memo" self = false →
            strategy_variational_distribution (base_variational_strategy self) = (Ok d, b) →
            variational_distribution self
            = (Ok d, add_to_cache "variational_distribution_memo" d
                       (set_base_variational_strategy b self)))
  ∧ (∀ d self1, prior_distribution self = (Ok d, self1) →
       (∀ self2, _memoize_cache self2 = _memoize_cache self1 →
                 prior_distribution self2 = (Ok d, self2))
       ∧ ∀ xs, prior_distribution (after_calls Module_call xs self1)
               = (Ok d, after_calls Module_call xs self1))
  ∧ (∀ d self1, variational_distribution self = (Ok d, self1) →
       (∀ self2, _memoize_cache self2 = _memoize_cache self1 →
                 variational_distribution self2 = (Ok d, self2))
       ∧ ∀ xs, variational_distribution (after_calls Module_call xs self1)
               = (Ok d, after_calls Module_call xs self1)).
Proof.
  intros Hparent Heval.
  assert (∀ name (m : M B D) d b,
    is_in_cache name self = false →
    m (base_variational_strategy self) = (Ok d, b) →
    cached name (on_base m) self
    = (Ok d, add_to_cache name d (set_base_variational_strategy b self))) as Hfirst.
  { intros name m d b Hmiss Hbase. rewrite (cached_miss _ _ _ Hmiss).
    unfold on_base. rewrite Hbase. reflexivity. }
  assert (∀ name method d self1,
    cached name method self = (Ok d, self1) →
    training self1 = false →
    (∀ self2, _memoize_cache self2 = _memoize_cache self1 →
              cached name method self2 = (Ok d, self2))
    ∧ ∀ xs, cached name method (after_calls Module_call xs self1)
            = (Ok d, after_calls Module_call xs self1)) as Hmemo.
  { intros name method d self1 Hacc Heval1.
    apply cached_returns_stored in Hacc.
    assert (∀ self2, _memoize_cache self2 = _memoize_cache self1 →
              cached name method self2 = (Ok d, self2)) as Hsame.
    { intros self2 Hcache. apply cached_hit. rewrite Hcache. exact Hacc. }
    split; [exact Hsame|].
    intros xs. apply Hsame.
    apply (after_calls_evaluation xs self1 Hparent Heval1). }
  assert (∀ name (m : M B D) d self1,
    cached name (on_base m) self = (Ok d, self1) → training self1 = false) as Hmode.
  { intros name m d self1. destruct (is_in_cache name self) eqn:Hin.
    - apply is_in_cache_lookup in Hin as [v Hv].
      rewrite (cached_hit _ _ _ _ Hv). intros [= _ <-]. exact Heval.
    - rewrite (cached_miss _ _ _ Hin). unfold on_base.
      destruct (m (base_variational_strategy self)) as [[v|e] b];
        intros [= _ <-]; exact Heval. }
  split; [intros d b; apply Hfirst|].
  split; [intros d b; apply Hfirst|].
  split; intros d self1 Hacc.
  - apply Hmemo; [exact Hacc|]. exact (Hmode _ _ _ _ Hacc).
  - apply Hmemo; [exact Hacc|]. exact (Hmode _ _ _ _ Hacc).
Qed.

(** C4: a call of the wrapper in training mode hands the instance to
    the parent's [__call__] with nothing cached: an existing cache
    dictionary has been replaced by an empty one, every other attribute
    is as before, and the accessors on that instance return what the
    base strategy's properties return now. *)
Theorem call_in_training_discards_cache (x : X) self :
  training self = true →
  __call__ Module_call x self = Module_call x (with_cache_discarded self)
  ∧ (∀ name, is_in_cache name (with_cache_discarded self) = false)
  ∧ (is_Some (_memoize_cache self) →
       _memoize_cache (with_cache_discarded self) = Some ∅)
  ∧ (base_variational_strategy (with_cache_discarded self) = base_variational_strategy self
     ∧ task_dim (with_cache_discarded self) = task_dim self
     ∧ num_tasks (with_cache_discarded self) = num_tasks self
     ∧ training (with_cache_discarded self) = true)
  ∧ (prior_distribution (with_cache_discarded self)).1
    = (strategy_prior_distribution (base_variational_strategy self)).1
  ∧ (variational_distribution (with_cache_discarded self)).1
    = (strategy_variational_distribution (base_variational_strategy self)).1.
Proof.
  intros Htrain.
  assert (base_variational_strategy (with_cache_discarded self)
          = base_variational_strategy self) as Hbase
    by (unfold with_cache_discarded; destruct (_memoize_cache self); reflexivity).
  split; [exact (call_in_training_mode x self Htrain)|].
  split; [intros name; apply with_cache_discarded_empty|].
  split.
  { intros [c Hc]. unfold with_cache_discarded. rewrite Hc. reflexivity. }
  split.
  { unfold with_cache_discarded. destruct (_memoize_cache self); simpl; auto. }
  rewrite <- Hbase.
  split; apply cached_on_base_miss, with_cache_discarded_empty.
Qed.

(** *** [forward] and [prior] *)

Lemma forward_unfold (inputs : X) self :
  forward inputs self =
    match strategy_call inputs (base_variational_strategy self) with
    | (Ok d, b) =>
        (reinterpret_checked d (task_dim self) (num_tasks self),
         set_base_variational_strategy b self)
    | (Err e, b) => (Err e, set_base_variational_strategy b self)
    end.
Proof.
  unfold forward, reinterpret_checked, mbind, M_bind, bind, on_base, getattr, lift,
    index_last, assert, mret, M_ret, ret, raise.
  destruct (strategy_call inputs (base_variational_strategy self)) as [[d|e] b];
    simpl; [|reflexivity].
  destruct (to_multitask_from_batch d (task_dim self)) as [d'|e]; simpl; [|reflexivity].
  destruct (last (event_shape d')) as [size|]; simpl; [|reflexivity].
  case_bool_decide; case_decide; done.
Qed.

Lemma prior_unfold (inputs : X) self :
  prior inputs self =
    match strategy_prior inputs (base_variational_strategy self) with
    | (Ok d, b) =>
        (if prior_expands (task_dim self) (length (batch_shape d))
         then to_multitask d (num_tasks self)
         else reinterpret_checked d (task_dim self) (num_tasks self),
         set_base_variational_strategy b self)
    | (Err e, b) => (Err e, set_base_variational_strategy b self)
    end.
Proof.
  unfold prior, reinterpret_checked, mbind, M_bind, bind, on_base, getattr, lift,
    index_last, assert, mret, M_ret, ret, raise.
  destruct (strategy_prior inputs (base_variational_strategy self)) as [[d|e] b];
    simpl; [|reflexivity].
  destruct (prior_expands (task_dim self) (length (batch_shape d))); [reflexivity|].
  destruct (to_multitask_from_batch d (task_dim self)) as [d'|e]; simpl; [|reflexivity].
  destruct (last (event_shape d')) as [size|]; simpl; [|reflexivity].
  case_bool_decide; case_decide; done.
Qed.

(** The condition of [prior] holds when the task dimension exceeds the
    rank in either direction. *)
Lemma prior_expands_exceeds_rank (td : Z) (rank : nat) :
  prior_expands td rank = true ↔ task_dim_exceeds_rank td rank.
Proof.
  unfold prior_expands, task_dim_exceeds_rank.
  rewrite orb_true_iff, !andb_true_iff, !bool_decide_eq_true. lia.
Qed.

(** Away from the rank itself the condition of [prior] is the spec's:
    it holds exactly when the task dimension names no batch
    dimension. *)
Lemma prior_expands_outside_rank (td : Z) (rank : nat) :
  td ≠ Z.of_nat rank →
  prior_expands td rank = true ↔ task_dim_outside_rank td rank.
Proof.
  intros Hne. rewrite prior_expands_exceeds_rank.
  unfold task_dim_exceeds_rank, task_dim_outside_rank. lia.
Qed.

(** Away from the rank itself [prior] branches as the spec says: it
    expands a distribution without the task dimension and otherwise
    reads the batch dimension as the task dimension under the
    assertion, as [forward] does with the same distribution. *)
Lemma prior_branches_off_boundary (inputs : X) self (d : D) (b : B) :
  strategy_prior inputs (base_variational_strategy self) = (Ok d, b) →
  task_dim self ≠ Z.of_nat (length (batch_shape d)) →
  (task_dim_outside_rank (task_dim self) (length (batch_shape d)) →
     prior inputs self =
       (to_multitask d (num_tasks self), set_base_variational_strategy b self))
  ∧ (¬ task_dim_outside_rank (task_dim self) (length (batch_shape d)) →
     prior inputs self =
       (reinterpret_checked d (task_dim self) (num_tasks self),
        set_base_variational_strategy b self)
     ∧ ∀ inputs', strategy_call inputs' (base_variational_strategy self) = (Ok d, b) →
                  prior inputs self = forward inputs' self).
Proof.
  intros Hprior Hne. rewrite prior_unfold, Hprior. split.
  - intros Hout. apply (prior_expands_outside_rank _ _ Hne) in Hout.
    rewrite Hout. reflexivity.
  - intros Hin. rewrite <- (prior_expands_outside_rank _ _ Hne), not_true_iff_false in Hin.
    rewrite Hin. split; [reflexivity|].
    intros inputs' Hcall. rewrite forward_unfold, Hcall. reflexivity.
Qed.

(** C3: [forward] calls the base strategy on the inputs and reads
    batch dimension [task_dim] of the result as the task dimension.
    Whatever it returns is that reading, and its last event dimension
    is [num_tasks]; and when the reading has a last event dimension,
    [forward] returns it if the size is [num_tasks] and ends with
    [AssertionError] otherwise. *)
Theorem forward_returns_task_count_or_asserts (inputs : X) self :
  (∀ r self', forward inputs self = (Ok r, self') →
     ∃ d b, strategy_call inputs (base_variational_strategy self) = (Ok d, b)
            ∧ to_multitask_from_batch d (task_dim self) = Ok r
            ∧ (∃ size, last (event_shape r) = Some size
                       ∧ Z.of_nat size = num_tasks self)
            ∧ self' = set_base_variational_strategy b self)
  ∧ (∀ d b d' size,
       strategy_call inputs (base_variational_strategy self) = (Ok d, b) →
       to_multitask_from_batch d (task_dim self) = Ok d' →
       last (event_shape d') = Some size →
       (Z.of_nat size = num_tasks self →
          forward inputs self = (Ok d', set_base_variational_strategy b self))
       ∧ (Z.of_nat size ≠ num_tasks self →
          forward inputs self = (Err AssertionError, set_base_variational_strategy b self))).
Proof.
  rewrite forward_unfold. unfold reinterpret_checked. split.
  - intros r self'.
    destruct (strategy_call inputs (base_variational_strategy self)) as [[d|e] b];
      [|discriminate].
    destruct (to_multitask_from_batch d (task_dim self)) as [d'|e] eqn:Hd'; [|discriminate].
    destruct (last (event_shape d')) as [size|] eqn:Hsize; [|discriminate].
    case_decide; [|discriminate]. intros [= <- <-].
    exists d, b. repeat split; eauto.
  - intros d b d' size -> -> ->. split; intros Hsize; case_decide; done.
Qed.

(** C2: when the task dimension equals the rank of the batch shape that
    the base strategy's [prior] returns, it lies outside the rank, no
    batch dimension having that index, and yet [prior] does not expand
    the distribution: its condition is false and it returns the checked
    reading of batch dimension [task_dim], a dimension that does not
    exist. *)
Theorem prior_reinterprets_at_rank (inputs : X) self (d : D) (b : B) :
  strategy_prior inputs (base_variational_strategy self) = (Ok d, b) →
  task_dim self = Z.of_nat (length (batch_shape d)) →
  task_dim_outside_rank (task_dim self) (length (batch_shape d))
  ∧ prior_expands (task_dim self) (length (batch_shape d)) = false
  ∧ prior inputs self =
      (reinterpret_checked d (task_dim self) (num_tasks self),
       set_base_variational_strategy b self).
Proof.
  intros Hprior Hrank.
  assert (prior_expands (task_dim self) (length (batch_shape d)) = false) as Hcond.
  { apply not_true_iff_false. rewrite prior_expands_exceeds_rank.
    unfold task_dim_exceeds_rank. lia. }
  split; [unfold task_dim_outside_rank; lia|].
  split; [exact Hcond|].
  rewrite prior_unfold, Hprior, Hcond. reflexivity.
Qed.

(** C9: with task dimension 0 the condition of [prior] is false for
    every rank, the empty batch shape included; with a positive task
    dimension it is true exactly when the task dimension is greater
    than the rank.  So [prior] reads the batch dimension as the task
    dimension for task dimension 0 and for a positive one up to and
    including the rank, and expands only beyond the rank. *)
Theorem prior_expand_boundaries (inputs : X) self (d : D) (b : B) :
  strategy_prior inputs (base_variational_strategy self) = (Ok d, b) →
  (∀ rank, prior_expands 0 rank = false)
  ∧ (∀ td rank, (td > 0)%Z → prior_expands td rank = true ↔ (td > Z.of_nat rank)%Z)
  ∧ (task_dim self = 0%Z →
       prior inputs self =
         (reinterpret_checked d 0 (num_tasks self), set_base_variational_strategy b self))
  ∧ ((0 < task_dim self ≤ Z.of_nat (length (batch_shape d)))%Z →
       prior inputs self =
         (reinterpret_checked d (task_dim self) (num_tasks self),
          set_base_variational_strategy b self))
  ∧ ((Z.of_nat (length (batch_shape d)) < task_dim self)%Z →
       prior inputs self =
         (to_multitask d (num_tasks self), set_base_variational_strategy b self)).
Proof.
  intros Hprior.
  assert (∀ td rank, (td > 0)%Z →
            prior_expands td rank = true ↔ (td > Z.of_nat rank)%Z) as Hpos.
  { intros td rank Htd. unfold prior_expands.
    rewrite orb_true_iff, !andb_true_iff, !bool_decide_eq_true. lia. }
  split; [intros rank; unfold prior_expands; simpl; reflexivity|].
  split; [exact Hpos|].
  rewrite prior_unfold, Hprior. repeat split.
  - intros ->. reflexivity.
  - intros [Hlo Hhi].
    destruct (prior_expands (task_dim self) (length (batch_shape d))) eqn:He;
      [|reflexivity].
    apply Hpos in He; lia.
  - intros Hbeyond.
    assert (prior_expands (task_dim self) (length (batch_shape d)) = true) as ->
      by (apply Hpos; lia).
    reflexivity.
Qed.

(** *** [kl_divergence] *)

Lemma kl_divergence_unfold self :
  kl_divergence zero add super_kl_divergence self =
    match super_kl_divergence self with
    | (Ok kl, self') => (Ok (sum_axis zero add kl (length (shape kl) - 1)), self')
    | (Err e, self') => (Err e, self')
    end.
Proof.
  unfold kl_divergence, mbind, M_bind, bind, lift.
  destruct (super_kl_divergence self) as [[kl|e] self']; [|reflexivity].
  rewrite tensor_sum_last_axis. reflexivity.
Qed.

(** C8: whatever the task dimension of the instance, [kl_divergence]
    returns the parent's KL tensor with its last axis summed out: for a
    KL tensor of shape [s ++ [n]] the result has shape [s] and its
    entries are the sums of the consecutive rows of [n] entries. *)
Theorem kl_divergence_sums_last_axis self self' (kl : tensor A) (s : list nat) (n : nat) :
  super_kl_divergence self = (Ok kl, self') →
  shape kl = s ++ [n] →
  kl_divergence zero add super_kl_divergence self =
    (Ok (Tensor s ((λ o, sum_entries zero add ((λ k, entry zero kl (o * n + k)) <$> seq 0 n))
                     <$> seq 0 (numel s))),
     self').
Proof.
  intros Hsuper Hshape. rewrite kl_divergence_unfold, Hsuper.
  rewrite (sum_axis_last zero add kl s n Hshape). reflexivity.
Qed.

(** When the task dimension wraps to the last axis of the KL tensor,
    the sum over the task dimension is the one [kl_divergence] takes. *)
Lemma kl_divergence_default_task_dim self self' (kl : tensor A) :
  super_kl_divergence self = (Ok kl, self') →
  wrap_dim (task_dim self) (length (shape kl)) = Some (length (shape kl) - 1)%nat →
  kl_divergence zero add super_kl_divergence self =
    (kl_summed_over_task_dim zero add kl self, self').
Proof.
  intros Hsuper Hwrap. rewrite kl_divergence_unfold, Hsuper.
  unfold kl_summed_over_task_dim, tensor_sum. rewrite Hwrap. reflexivity.
Qed.
End Properties.

(** ** The methods on concrete instances *)

Example tensor_sum_last :
  tensor_sum 0%Z Z.add (Tensor [2; 2]%nat [1; 2; 3; 4]%Z) (-1) = Ok (Tensor [2]%nat [3; 7]%Z).
Proof. reflexivity. Qed.

Example tensor_sum_first :
  tensor_sum 0%Z Z.add (Tensor [2; 2]%nat [1; 2; 3; 4]%Z) 0 = Ok (Tensor [2]%nat [4; 6]%Z).
Proof. reflexivity. Qed.

Example tensor_sum_scalar :
  tensor_sum 0%Z Z.add (Tensor [] [5]%Z) (-1) = Ok (Tensor [] [5]%Z).
Proof. reflexivity. Qed.

Example tensor_sum_out_of_range :
  tensor_sum 0%Z Z.add (Tensor [2; 2]%nat [1; 2; 3; 4]%Z) 2 = Err IndexError.
Proof. reflexivity. Qed.

(** C1: on an instance whose task dimension is the first batch dimension
    and a KL tensor of shape [3; 2], [kl_divergence] returns the three
    sums over the last axis, while the sum over the task dimension is the
    two sums over the first axis: [kl_divergence] does not return the KL
    summed over the configured task dimension. *)
Theorem kl_divergence_not_over_task_dim :
  task_dim three_tasks_first = 0%Z
  ∧ (kl_divergence 0%Z Z.add (fixed_kl kl_3x2) three_tasks_first).1
    = Ok (Tensor [3]%nat [3; 7; 11]%Z)
  ∧ kl_summed_over_task_dim 0%Z Z.add kl_3x2 three_tasks_first
    = Ok (Tensor [2]%nat [9; 12]%Z)
  ∧ (kl_divergence 0%Z Z.add (fixed_kl kl_3x2) three_tasks_first).1
    ≠ kl_summed_over_task_dim 0%Z Z.add kl_3x2 three_tasks_first.
Proof. repeat split. discriminate. Qed.

(** The first accesses on a fresh two-task wrapper return the base
    strategy's first distribution object. *)
Lemma accessors_pass_through_witness :
  (prior_distribution two_tasks).1 = Ok (Mvn 0 [3; 2]%nat [4]%nat)
  ∧ (variational_distribution two_tasks).1 = Ok (Mvn 0 [3; 2]%nat [4]%nat).
Proof.
  destruct (accessors_pass_through two_tasks) as [Hprior Hvariational].
  split; [rewrite Hprior | rewrite Hvariational]; reflexivity.
Defined.

(** In evaluation mode the first access of each accessor returns the
    base strategy's object 0, and that object is still the one returned
    after two calls of the wrapper, each of which makes the base
    strategy build a new object. *)
Lemma accessors_memoized_witness :
  (prior_distribution two_tasks_eval).1 = Ok (Mvn 0 [3; 2]%nat [4]%nat)
  ∧ prior_distribution
      (after_calls forward [5; 6]%nat (prior_distribution two_tasks_eval).2)
    = (Ok (Mvn 0 [3; 2]%nat [4]%nat),
       after_calls forward [5; 6]%nat (prior_distribution two_tasks_eval).2)
  ∧ (variational_distribution two_tasks_eval).1 = Ok (Mvn 0 [3; 2]%nat [4]%nat)
  ∧ variational_distribution
      (after_calls forward [5; 6]%nat (variational_distribution two_tasks_eval).2)
    = (Ok (Mvn 0 [3; 2]%nat [4]%nat),
       after_calls forward [5; 6]%nat (variational_distribution two_tasks_eval).2).
Proof.
  destruct (accessors_memoized forward two_tasks_eval)
    as (Hprior & Hvariational & Hprior_again & Hvariational_again).
  - intros x s. apply forward_frame.
  - reflexivity.
  - pose proof (Hprior (Mvn 0 [3; 2]%nat [4]%nat) (BatchStrategy 1 [3; 2]%nat 4 false)
                  eq_refl eq_refl) as Hp.
    pose proof (Hvariational (Mvn 0 [3; 2]%nat [4]%nat)
                  (BatchStrategy 1 [3; 2]%nat 4 false) eq_refl eq_refl) as Hv.
    split; [rewrite Hp; reflexivity|].
    split; [rewrite Hp; exact (proj2 (Hprior_again _ _ Hp) [5; 6]%nat)|].
    split; [rewrite Hv; reflexivity|].
    rewrite Hv. exact (proj2 (Hvariational_again _ _ Hv) [5; 6]%nat).
Defined.

(** A training-mode call on a wrapper holding a stale prior distribution
    (object 7) runs [forward] on an empty cache, on which the accessor
    returns the base strategy's current object (object 9). *)
Lemma call_in_training_discards_cache_witness :
  is_in_cache "prior_distribution_memo" two_tasks_stale = true
  ∧ __call__ forward 5%nat two_tasks_stale
    = forward 5%nat (with_cache_discarded two_tasks_stale)
  ∧ _memoize_cache (with_cache_discarded two_tasks_stale) = Some ∅
  ∧ (prior_distribution (with_cache_discarded two_tasks_stale)).1
    = Ok (Mvn 9 [3; 2]%nat [4]%nat).
Proof.
  destruct (call_in_training_discards_cache forward 5%nat two_tasks_stale)
    as (Hcall & _ & Hempty & _ & Hprior & _); [reflexivity|].
  split; [reflexivity|]. split; [exact Hcall|].
  split; [apply Hempty; eexists; reflexivity|].
  rewrite Hprior. reflexivity.
Defined.

(** Two tasks over GPs of batch shape [3; 2]: [forward] returns the
    multitask distribution; configured with three tasks it ends with
    [AssertionError]. *)
Lemma forward_returns_task_count_or_asserts_witness :
  forward 5%nat two_tasks
  = (Ok (Mvn 0 [3]%nat [5; 2]%nat),
     set_base_variational_strategy (BatchStrategy 1 [3; 2]%nat 4 true) two_tasks)
  ∧ forward 5%nat wrong_task_count
    = (Err AssertionError,
       set_base_variational_strategy (BatchStrategy 1 [3; 2]%nat 4 true) wrong_task_count).
Proof.
  split.
  - refine (proj1 (proj2 (forward_returns_task_count_or_asserts 5%nat two_tasks)
                     (Mvn 0 [3; 2]%nat [5]%nat) _ (Mvn 0 [3]%nat [5; 2]%nat) 2%nat _ _ _) _);
      reflexivity.
  - refine (proj2 (proj2 (forward_returns_task_count_or_asserts 5%nat wrong_task_count)
                     (Mvn 0 [3; 2]%nat [5]%nat) _ (Mvn 0 [3]%nat [5; 2]%nat) 2%nat _ _ _) _);
      [reflexivity | reflexivity | reflexivity | discriminate].
Defined.

(** Task dimension 2 over the batch shape [3; 2], and task dimension 0
    over the empty batch shape: [prior] reads a batch dimension that is
    not there. *)
Lemma prior_reinterprets_at_rank_witness :
  (task_dim_outside_rank 2 2
   ∧ prior 5%nat task_dim_at_rank
     = (reinterpret_checked (Mvn 0 [3; 2]%nat [5]%nat) 2 2,
        set_base_variational_strategy (BatchStrategy 1 [3; 2]%nat 4 false)
          task_dim_at_rank))
  ∧ (task_dim_outside_rank 0 0
     ∧ prior 5%nat (__init__ (BatchStrategy 0 [] 4 false) 2 (Some 0%Z))
       = (reinterpret_checked (Mvn 0 [] [5]%nat) 0 2,
          set_base_variational_strategy (BatchStrategy 1 [] 4 false)
            (__init__ (BatchStrategy 0 [] 4 false) 2 (Some 0%Z)))).
Proof.
  split.
  - destruct (prior_reinterprets_at_rank 5%nat task_dim_at_rank
                (Mvn 0 [3; 2]%nat [5]%nat) (BatchStrategy 1 [3; 2]%nat 4 false))
      as (Hout & _ & Hprior); [reflexivity | reflexivity |].
    split; [exact Hout | exact Hprior].
  - destruct (prior_reinterprets_at_rank 5%nat
                (__init__ (BatchStrategy 0 [] 4 false) 2 (Some 0%Z))
                (Mvn 0 [] [5]%nat) (BatchStrategy 1 [] 4 false))
      as (Hout & _ & Hprior); [reflexivity | reflexivity |].
    split; [exact Hout | exact Hprior].
Defined.

(** Task dimension 2 over rank 2 takes the reinterpretation branch, where
    the shape-level distribution rejects the index. *)
Lemma prior_expand_boundaries_witness :
  prior_expands 2 2 = false
  ∧ prior 5%nat task_dim_at_rank
    = (Err (Raised "ValueError"),
       set_base_variational_strategy (BatchStrategy 1 [3; 2]%nat 4 false) task_dim_at_rank).
Proof.
  destruct (prior_expand_boundaries 5%nat task_dim_at_rank (Mvn 0 [3; 2]%nat [5]%nat)
              (BatchStrategy 1 [3; 2]%nat 4 false))
    as (_ & Hpos & _ & Hwithin & _); [reflexivity|].
  split.
  - apply not_true_iff_false. intros Hexp.
    destruct (Hpos 2%Z 2%nat) as [Hgt _]; [lia|]. specialize (Hgt Hexp). lia.
  - rewrite Hwithin; [reflexivity | simpl; lia].
Defined.

(** With the first batch dimension as the task dimension the last axis
    is still the one summed out. *)
Lemma kl_divergence_sums_last_axis_witness :
  task_dim three_tasks_first ≠ (-1)%Z
  ∧ kl_divergence 0%Z Z.add (fixed_kl kl_3x2) three_tasks_first
    = (Ok (Tensor [3]%nat [3; 7; 11]%Z), three_tasks_first).
Proof.
  split; [discriminate|].
  exact (kl_divergence_sums_last_axis 0%Z Z.add (fixed_kl kl_3x2)
           three_tasks_first three_tasks_first kl_3x2 [3]%nat 2%nat eq_refl eq_refl).
Defined.

(** ** Further properties of the tensor reduction *)

Section TensorShapes.
Context {A : Type} (zero : A) (add : A → A → A).

Lemma delete_last_removelast (l : list nat) :
  delete (length l - 1) l = removelast l.
Proof.
  destruct l as [|x l] using rev_ind; [reflexivity|].
  rewrite length_app. simpl. replace (length l + 1 - 1)%nat with (length l) by lia.
  rewrite delete_middle, removelast_last. apply app_nil_r.
Qed.

(** Summing out the last axis leaves a tensor with as many entries as
    its shape announces, whatever the argument holds. *)
Lemma sum_axis_last_well_formed (t : tensor A) :
  length (data (sum_axis zero add t (length (shape t) - 1)))
  = numel (shape (sum_axis zero add t (length (shape t) - 1))).
Proof.
  destruct (shape t) as [|n s] eqn:Hshape using rev_ind.
  - unfold sum_axis. rewrite Hshape. reflexivity.
  - clear IHs. rewrite <- Hshape, (sum_axis_last zero add t s n Hshape). simpl.
    rewrite length_fmap, length_seq. reflexivity.
Qed.
End TensorShapes.

(** ** Further properties of the class *)

Section FurtherProperties.
Context {A : Type} (zero : A) (add : A → A → A).
Context {B X D P : Type} `{!Distribution D} `{!VariationalStrategy B X D P}.
Variable super_kl_divergence : M (MultitaskVariationalStrategy B D) (tensor A).
Variable Module_call : X → M (MultitaskVariationalStrategy B D) D.

Implicit Types (self : MultitaskVariationalStrategy B D) (name : string).

Lemma reinterpret_checked_error (d : D) (td n : Z) (e : exn) :
  reinterpret_checked d td n = Err e →
  to_multitask_from_batch d td = Err e
  ∨ (∃ d', to_multitask_from_batch d td = Ok d'
           ∧ event_shape d' = [] ∧ e = IndexError)
  ∨ (∃ d' size, to_multitask_from_batch d td = Ok d'
                ∧ last (event_shape d') = Some size
                ∧ Z.of_nat size ≠ n ∧ e = AssertionError).
Proof.
  unfold reinterpret_checked.
  destruct (to_multitask_from_batch d td) as [d'|e'] eqn:Hd'.
  - destruct (last (event_shape d')) as [size|] eqn:Hsize.
    + case_decide; [discriminate|]. intros [= <-]. right. right. eauto 8.
    + intros [= <-]. right. left. exists d'. apply last_None in Hsize. eauto.
  - intros [= <-]. by left.
Qed.

(** X1: when [forward] ends with an exception, it is the one the base
    strategy's call raised, or the one [to_multitask_from_batch] raised,
    or [IndexError] because the converted distribution has an empty
    event shape, or [AssertionError] because its last event dimension
    is not [num_tasks]. *)
Theorem forward_error_cases (inputs : X) self self' (e : exn) :
  forward inputs self = (Err e, self') →
  (∃ b, strategy_call inputs (base_variational_strategy self) = (Err e, b))
  ∨ (∃ d b, strategy_call inputs (base_variational_strategy self) = (Ok d, b)
      ∧ (to_multitask_from_batch d (task_dim self) = Err e
         ∨ (∃ d', to_multitask_from_batch d (task_dim self) = Ok d'
                  ∧ event_shape d' = [] ∧ e = IndexError)
         ∨ (∃ d' size, to_multitask_from_batch d (task_dim self) = Ok d'
                       ∧ last (event_shape d') = Some size
                       ∧ Z.of_nat size ≠ num_tasks self ∧ e = AssertionError))).
Proof.
  rewrite forward_unfold.
  destruct (strategy_call inputs (base_variational_strategy self)) as [[d|e'] b].
  - intros [= Hr _]. right. exists d, b. split; [reflexivity|].
    by apply reinterpret_checked_error.
  - intros [= <- _]. left. by exists b.
Qed.

(** X2: [forward] and [prior] change nothing of the wrapper but the
    state of the base strategy, which they leave as the base strategy's
    own call (its [prior]) leaves it, whether they return or raise. *)
Theorem forward_prior_frame (inputs : X) self :
  (forward inputs self).2
  = set_base_variational_strategy
      (strategy_call inputs (base_variational_strategy self)).2 self
  ∧ (prior inputs self).2
    = set_base_variational_strategy
        (strategy_prior inputs (base_variational_strategy self)).2 self.
Proof.
  rewrite forward_unfold, prior_unfold.
  destruct (strategy_call inputs (base_variational_strategy self)) as [[d|e] b];
    destruct (strategy_prior inputs (base_variational_strategy self)) as [[d'|e'] b'];
    split; reflexivity.
Qed.

(** X3: for a negative task dimension [prior] expands exactly when the
    task dimension is below minus the rank: from [-rank] to [-1], the
    valid indices from the back, it reads the batch dimension as the
    task dimension. *)
Theorem prior_negative_task_dim (inputs : X) self (d : D) (b : B) :
  strategy_prior inputs (base_variational_strategy self) = (Ok d, b) →
  (task_dim self < 0)%Z →
  (prior_expands (task_dim self) (length (batch_shape d)) = true
   ↔ (task_dim self < - Z.of_nat (length (batch_shape d)))%Z)
  ∧ ((- Z.of_nat (length (batch_shape d)) ≤ task_dim self)%Z →
       prior inputs self =
         (reinterpret_checked d (task_dim self) (num_tasks self),
          set_base_variational_strategy b self))
  ∧ ((task_dim self < - Z.of_nat (length (batch_shape d)))%Z →
       prior inputs self =
         (to_multitask d (num_tasks self), set_base_variational_strategy b self)).
Proof.
  intros Hprior Hneg.
  assert (prior_expands (task_dim self) (length (batch_shape d)) = true
          ↔ (task_dim self < - Z.of_nat (length (batch_shape d)))%Z) as Hiff.
  { unfold prior_expands.
    rewrite orb_true_iff, !andb_true_iff, !bool_decide_eq_true. lia. }
  split; [exact Hiff|]. rewrite prior_unfold, Hprior. split.
  - intros Hin.
    assert (prior_expands (task_dim self) (length (batch_shape d)) = false) as ->
      by (apply not_true_iff_false; rewrite Hiff; lia).
    reflexivity.
  - intros Hout. apply Hiff in Hout. rewrite Hout. reflexivity.
Qed.

(** X4: when [prior] ends with an exception, it is the one the base
    strategy's [prior] raised, or, beyond the rank, the one
    [to_multitask] raised, or, within the rank, one of the three ways
    the checked reading of the batch dimension fails.  The expanding
    branch carries no assertion of its own. *)
Theorem prior_error_cases (inputs : X) self self' (e : exn) :
  prior inputs self = (Err e, self') →
  (∃ b, strategy_prior inputs (base_variational_strategy self) = (Err e, b))
  ∨ (∃ d b, strategy_prior inputs (base_variational_strategy self) = (Ok d, b)
      ∧ ((task_dim_exceeds_rank (task_dim self) (length (batch_shape d))
          ∧ to_multitask d (num_tasks self) = Err e)
         ∨ (¬ task_dim_exceeds_rank (task_dim self) (length (batch_shape d))
            ∧ (to_multitask_from_batch d (task_dim self) = Err e
               ∨ (∃ d', to_multitask_from_batch d (task_dim self) = Ok d'
                        ∧ event_shape d' = [] ∧ e = IndexError)
               ∨ (∃ d' size, to_multitask_from_batch d (task_dim self) = Ok d'
                             ∧ last (event_shape d') = Some size
                             ∧ Z.of_nat size ≠ num_tasks self
                             ∧ e = AssertionError))))).
Proof.
  rewrite prior_unfold.
  destruct (strategy_prior inputs (base_variational_strategy self)) as [[d|e'] b].
  - intros [= Hr _]. right. exists d, b. split; [reflexivity|].
    destruct (prior_expands (task_dim self) (length (batch_shape d))) eqn:He.
    + left. split; [by apply prior_expands_exceeds_rank | exact Hr].
    + right. split.
      * rewrite <- prior_expands_exceeds_rank, He. discriminate.
      * by apply reinterpret_checked_error.
  - intros [= <- _]. left. by exists b.
Qed.

Lemma cached_other_name name other (method : M B D) self :
  name ≠ other →
  _memoize_cache (cached name (on_base method) self).2 ≫= (.!! other)
  = _memoize_cache self ≫= (.!! other).
Proof.
  intros Hne. destruct (is_in_cache name self) eqn:Hin.
  - apply is_in_cache_lookup in Hin as [v Hv].
    rewrite (cached_hit _ _ _ _ Hv). reflexivity.
  - rewrite (cached_miss _ _ _ Hin). unfold on_base.
    destruct (method (base_variational_strategy self)) as [[v|e] b]; simpl;
      [|reflexivity].
    rewrite lookup_insert_ne by exact Hne.
    destruct (_memoize_cache self); reflexivity.
Qed.

(** X5: the two accessors are memoized under different names: an access
    of [prior_distribution] leaves what is cached for
    [variational_distribution] as it is, and the other way round. *)
Theorem accessors_independent self :
  _memoize_cache (prior_distribution self).2 ≫= (.!! "variational_distribution_memo")
  = _memoize_cache self ≫= (.!! "variational_distribution_memo")
  ∧ _memoize_cache (variational_distribution self).2 ≫= (.!! "prior_distribution_memo")
    = _memoize_cache self ≫= (.!! "prior_distribution_memo").
Proof. split; apply cached_other_name; discriminate. Qed.

(** X6: after a call of the wrapper in training mode, with a parent's
    [__call__] that leaves the cache alone, both accessors return what
    the base strategy's properties return on the base strategy as the
    call left it. *)
Theorem call_then_access_recomputes (x : X) self :
  training self = true →
  (∀ x' s, _memoize_cache (Module_call x' s).2 = _memoize_cache s) →
  (prior_distribution (__call__ Module_call x self).2).1
  = (strategy_prior_distribution
       (base_variational_strategy (__call__ Module_call x self).2)).1
  ∧ (variational_distribution (__call__ Module_call x self).2).1
    = (strategy_variational_distribution
         (base_variational_strategy (__call__ Module_call x self).2)).1.
Proof.
  intros Htrain Hparent.
  assert (∀ name, is_in_cache name (__call__ Module_call x self).2 = false) as Hempty.
  { intros name. rewrite (call_in_training_mode Module_call x self Htrain).
    rewrite <- (with_cache_discarded_empty name self).
    unfold is_in_cache. rewrite Hparent. reflexivity. }
  split; apply cached_on_base_miss, Hempty.
Qed.

(** X7: [kl_divergence] raises exactly when the parent's [kl_divergence]
    does, with the same exception; otherwise it returns a tensor whose
    shape is the parent's without its last dimension and whose number of
    entries is the one of that shape. *)
Theorem kl_divergence_fails_only_with_parent self :
  (∀ e self', kl_divergence zero add super_kl_divergence self = (Err e, self')
              ↔ super_kl_divergence self = (Err e, self'))
  ∧ (∀ kl self', super_kl_divergence self = (Ok kl, self') →
       ∃ r, kl_divergence zero add super_kl_divergence self = (Ok r, self')
            ∧ shape r = removelast (shape kl)
            ∧ length (data r) = numel (shape r)).
Proof.
  rewrite (kl_divergence_unfold zero add super_kl_divergence self). split.
  - intros e self'.
    destruct (super_kl_divergence self) as [[kl|e'] s]; split; congruence.
  - intros kl self' ->. eexists. split; [reflexivity|]. split.
    + simpl. apply delete_last_removelast.
    + apply sum_axis_last_well_formed.
Qed.

(** X9: when the task dimension is -1, as after a construction that
    omits it, or is the index of the last dimension of the KL tensor,
    [kl_divergence] returns the KL summed over the task dimension. *)
Theorem kl_divergence_over_last_task_dim self self' (kl : tensor A) :
  super_kl_divergence self = (Ok kl, self') →
  task_dim self = (-1)%Z
  ∨ (shape kl ≠ [] ∧ task_dim self = (Z.of_nat (length (shape kl)) - 1)%Z) →
  kl_divergence zero add super_kl_divergence self
  = (kl_summed_over_task_dim zero add kl self, self').
Proof.
  intros Hsuper Hdim.
  apply (kl_divergence_default_task_dim zero add super_kl_divergence _ _ _ Hsuper).
  destruct Hdim as [-> | [Hrank ->]]; [apply wrap_dim_last|].
  assert (length (shape kl) ≠ 0%nat) by (destruct (shape kl); [done | simpl; lia]).
  rewrite wrap_dim_nonneg by lia. f_equal. lia.
Qed.
End FurtherProperties.

(** ** The further properties on concrete instances *)

(** Three tasks configured over GPs that carry two: the exception of
    [forward] is its own assertion. *)
Lemma forward_error_cases_witness :
  (∃ b, strategy_call 5%nat (base_variational_strategy wrong_task_count)
        = (Err AssertionError, b))
  ∨ (∃ d b, strategy_call 5%nat (base_variational_strategy wrong_task_count) = (Ok d, b)
      ∧ (to_multitask_from_batch d (task_dim wrong_task_count) = Err AssertionError
         ∨ (∃ d', to_multitask_from_batch d (task_dim wrong_task_count) = Ok d'
                  ∧ event_shape d' = [] ∧ AssertionError = IndexError)
         ∨ (∃ d' size, to_multitask_from_batch d (task_dim wrong_task_count) = Ok d'
                       ∧ last (event_shape d') = Some size
                       ∧ Z.of_nat size ≠ num_tasks wrong_task_count
                       ∧ AssertionError = AssertionError))).
Proof.
  apply (forward_error_cases 5%nat wrong_task_count
           (set_base_variational_strategy (BatchStrategy 1 [3; 2]%nat 4 true)
              wrong_task_count)).
  reflexivity.
Defined.

(** Task dimension -2 over rank 2 reads the first batch dimension as the
    three tasks; task dimension -3 expands. *)
Lemma prior_negative_task_dim_witness :
  prior 5%nat (__init__ (BatchStrategy 0 [3; 2]%nat 4 false) 3 (Some (-2)%Z))
  = (Ok (Mvn 0 [2]%nat [5; 3]%nat),
     set_base_variational_strategy (BatchStrategy 1 [3; 2]%nat 4 false)
       (__init__ (BatchStrategy 0 [3; 2]%nat 4 false) 3 (Some (-2)%Z)))
  ∧ prior 5%nat (__init__ (BatchStrategy 0 [3; 2]%nat 4 false) 3 (Some (-3)%Z))
    = (Ok (Mvn 0 [3; 2]%nat [5; 3]%nat),
       set_base_variational_strategy (BatchStrategy 1 [3; 2]%nat 4 false)
         (__init__ (BatchStrategy 0 [3; 2]%nat 4 false) 3 (Some (-3)%Z))).
Proof.
  split.
  - destruct (prior_negative_task_dim 5%nat
                (__init__ (BatchStrategy 0 [3; 2]%nat 4 false) 3 (Some (-2)%Z))
                (Mvn 0 [3; 2]%nat [5]%nat) (BatchStrategy 1 [3; 2]%nat 4 false))
      as (_ & Hwithin & _); [reflexivity | reflexivity |].
    rewrite Hwithin; [reflexivity | vm_compute; discriminate].
  - destruct (prior_negative_task_dim 5%nat
                (__init__ (BatchStrategy 0 [3; 2]%nat 4 false) 3 (Some (-3)%Z))
                (Mvn 0 [3; 2]%nat [5]%nat) (BatchStrategy 1 [3; 2]%nat 4 false))
      as (_ & _ & Hbeyond); [reflexivity | reflexivity |].
    rewrite Hbeyond; reflexivity.
Defined.

(** Task dimension 2 over rank 2: the exception of [prior] comes from
    the branch that reads a batch dimension. *)
Lemma prior_error_cases_witness :
  (∃ b, strategy_prior 5%nat (base_variational_strategy task_dim_at_rank)
        = (Err (Raised "ValueError"), b))
  ∨ (∃ d b, strategy_prior 5%nat (base_variational_strategy task_dim_at_rank) = (Ok d, b)
      ∧ ((task_dim_exceeds_rank (task_dim task_dim_at_rank) (length (batch_shape d))
          ∧ to_multitask d (num_tasks task_dim_at_rank) = Err (Raised "ValueError"))
         ∨ (¬ task_dim_exceeds_rank (task_dim task_dim_at_rank) (length (batch_shape d))
            ∧ (to_multitask_from_batch d (task_dim task_dim_at_rank)
               = Err (Raised "ValueError")
               ∨ (∃ d', to_multitask_from_batch d (task_dim task_dim_at_rank) = Ok d'
                        ∧ event_shape d' = [] ∧ Raised "ValueError" = IndexError)
               ∨ (∃ d' size, to_multitask_from_batch d (task_dim task_dim_at_rank) = Ok d'
                             ∧ last (event_shape d') = Some size
                             ∧ Z.of_nat size ≠ num_tasks task_dim_at_rank
                             ∧ Raised "ValueError" = AssertionError))))).
Proof.
  apply (prior_error_cases 5%nat task_dim_at_rank
           (set_base_variational_strategy (BatchStrategy 1 [3; 2]%nat 4 false)
              task_dim_at_rank)).
  reflexivity.
Defined.

(** After a training-mode call on the wrapper with the stale object 7,
    the accessor returns object 10, built by the base strategy after the
    call. *)
Lemma call_then_access_recomputes_witness :
  (prior_distribution (__call__ forward 5%nat two_tasks_stale).2).1
  = Ok (Mvn 10 [3; 2]%nat [4]%nat).
Proof.
  destruct (call_then_access_recomputes forward 5%nat two_tasks_stale) as [Hprior _].
  - reflexivity.
  - intros x' s. apply forward_frame.
  - rewrite Hprior. reflexivity.
Defined.

(** The shape and the size of the result on the KL tensor of shape
    [3; 2]. *)
Lemma kl_divergence_fails_only_with_parent_witness :
  ∃ r, kl_divergence 0%Z Z.add (fixed_kl kl_3x2) three_tasks_first
       = (Ok r, three_tasks_first)
       ∧ shape r = [3]%nat ∧ length (data r) = 3%nat.
Proof.
  destruct (proj2 (kl_divergence_fails_only_with_parent 0%Z Z.add (fixed_kl kl_3x2)
                     three_tasks_first) kl_3x2 three_tasks_first eq_refl)
    as (r & Hr & Hshape & Hlen).
  exists r. split; [exact Hr|]. split; [exact Hshape|].
  rewrite Hlen, Hshape. reflexivity.
Defined.

(** A wrapper built without a task dimension sums the KL over its task
    dimension. *)
Lemma kl_divergence_over_last_task_dim_witness :
  kl_divergence 0%Z Z.add (fixed_kl kl_3x2) two_tasks
  = (kl_summed_over_task_dim 0%Z Z.add kl_3x2 two_tasks, two_tasks).
Proof.
  apply (kl_divergence_over_last_task_dim 0%Z Z.add (fixed_kl kl_3x2)
           two_tasks two_tasks kl_3x2); [reflexivity|].
  left. reflexivity.
Defined.
